(** * py-coingecko: the parameter normalizer and the request pipeline

    A shallow embedding of [coingecko/utils.py] and of the request client of
    [coingecko/coingecko.py], with the properties of the specification
    stated and settled against it.

    Python objects are a closed sum [value]; a [dict] with string keys that
    is only compared as a mapping is a [gmap string value]; the client's
    effects (requests handed to the transport, log records) are threaded
    through an explicit [world]. *)

From Stdlib Require Import ZArith String Ascii List DecimalString.
From Stdlib.Strings Require Import Byte.
From stdpp Require Import gmap strings list fin_maps.

Local Open Scope string_scope.

#[local] Set Warnings "-register-all".

(** ** Python objects *)

(** The objects that reach the code: parameter values and parsed JSON.
    [VDict] keeps its items in insertion order, as a Python [dict] does;
    floating point numbers are outside the model. *)
Inductive value : Type :=
  | VNone
  | VBool (b : bool)
  | VInt (z : Z)
  | VStr (s : string)
  | VList (l : list value)
  | VDict (items : list (string * value)).

(** The exceptions that cross the code. *)
Inductive exn : Type :=
  | JSONDecodeError
  | UnicodeDecodeError
  | KeyError (k : string)
  | TypeError
  | ConnectionError.

Module Py.

(** [sep.join(parts)] *)
Fixpoint join (sep : string) (parts : list string) : string :=
  match parts with
  | [] => EmptyString
  | [p] => p
  | p :: rest => p ++ sep ++ join sep rest
  end.

(** [str(z)] for an [int]. *)
Definition str_int (z : Z) : string := NilZero.string_of_int (Z.to_int z).

Definition hex_digit (n : N) : ascii :=
  if (n <? 10)%N then ascii_of_N (48 + n) else ascii_of_N (87 + n).

Definition backslash : ascii := ascii_of_N 92.
Definition single_quote : ascii := ascii_of_N 39.
Definition double_quote : ascii := ascii_of_N 34.

Definition escape (s : string) : string := String backslash s.

(** One character of [repr(s)], for the quote character [q] that was
    chosen. This is [repr] on ASCII text. Code units above 0x7f are kept as
    they are, which is what [repr] does for a printable character; it
    escapes the others (U+00A0, U+200B, ...), so on text that holds one of
    those the rendering here differs from Python's. *)
Definition repr_char (q : ascii) (c : ascii) : string :=
  let n := N_of_ascii c in
  if Ascii.eqb c q then escape (String c EmptyString)
  else if Ascii.eqb c backslash then escape (String backslash EmptyString)
  else if (n =? 9)%N then escape "t"
  else if (n =? 10)%N then escape "n"
  else if (n =? 13)%N then escape "r"
  else if ((n <? 32) || (n =? 127))%N
    then escape (String "x" (String (hex_digit (n / 16))
                               (String (hex_digit (n mod 16)) EmptyString)))
  else String c EmptyString.

Fixpoint contains (c : ascii) (s : string) : bool :=
  match s with
  | EmptyString => false
  | String d s' => Ascii.eqb c d || contains c s'
  end.

Fixpoint repr_chars (q : ascii) (s : string) : string :=
  match s with
  | EmptyString => EmptyString
  | String c s' => repr_char q c ++ repr_chars q s'
  end.

(** [repr(s)] for a [str]: single quotes, unless the text has a single
    quote and no double quote. *)
Definition repr_str (s : string) : string :=
  let q : ascii :=
    if contains single_quote s && negb (contains double_quote s)
    then double_quote else single_quote in
  String q (repr_chars q s ++ String q EmptyString).

(** [repr(v)] *)
Fixpoint repr (v : value) : string :=
  match v with
  | VNone => "None"
  | VBool true => "True"
  | VBool false => "False"
  | VInt z => str_int z
  | VStr s => repr_str s
  | VList l => "[" ++ join ", " (List.map repr l) ++ "]"
  | VDict items =>
      "{" ++ join ", " (List.map (fun kv => let '(k, x) := kv in repr_str k ++ ": " ++ repr x) items) ++ "}"
  end.

(** [str(v)] *)
Definition str (v : value) : string :=
  match v with
  | VStr s => s
  | _ => repr v
  end.

Definition lower_char (c : ascii) : ascii :=
  let n := N_of_ascii c in
  if ((65 <=? n) && (n <=? 90))%N then ascii_of_N (n + 32) else c.

(** [s.lower()], on the ASCII letters. *)
Fixpoint lower (s : string) : string :=
  match s with
  | EmptyString => EmptyString
  | String c s' => String (lower_char c) (lower s')
  end.

End Py.

(** ** coingecko/utils.py *)

Module Utils.

(** [v is None] *)
Definition is_none (v : value) : bool :=
  match v with
  | VNone => true
  | _ => false
  end.

(** [remove_empty_dict_values]: the comprehension
    [{k: v for k, v in dic.items() if v is not None}]. *)
Definition remove_empty_dict_values (dic : gmap string value) : gmap string value :=
  filter (fun kv : string * value => is_none kv.2 = false) dic.

(** One turn of the loop of [clean_dict_values] on the item [(key, v)]:
    the two branches assign [dic[key]], every other value falls through. *)
Definition clean_dict_step (key : string) (v : value) (dic : gmap string value)
  : gmap string value :=
  match v with
  | VBool b => <[key := VStr (Py.lower (Py.str (VBool b)))]> dic
  | VList l => <[key := VStr (Py.join "," (List.map Py.str l))]> dic
  | _ => dic
  end.

(** [clean_dict_values]: the loop runs over the items of [dic] and assigns
    into [dic] itself; the dict that comes back is the one that went in. *)
Definition clean_dict_values (dic : gmap string value) : gmap string value :=
  map_fold clean_dict_step dic dic.

(** [bool(params)]: [None] and the empty dict are falsy. *)
Definition truthy (params : option (gmap string value)) : bool :=
  match params with
  | None => false
  | Some dic => negb (Nat.eqb (size dic) 0)
  end.

(** [clean_params] *)
Definition clean_params (params : option (gmap string value))
  : option (gmap string value) :=
  if negb (truthy params) then None
  else
    match params with
    | None => None
    | Some dic => Some (clean_dict_values (remove_empty_dict_values dic))
    end.

(** What the loop of [clean_dict_values] leaves under a key that held [v]. *)
Definition clean_value (v : value) : value :=
  match v with
  | VBool b => VStr (Py.lower (Py.str (VBool b)))
  | VList l => VStr (Py.join "," (List.map Py.str l))
  | _ => v
  end.

(** A raw bool or a raw list: the values the loop renders to a string. *)
Definition is_raw (v : value) : bool :=
  match v with
  | VBool _ | VList _ => true
  | _ => false
  end.

End Utils.

(** ** The transport's objects *)

(** [bytes.decode()]: strict UTF-8. A [str] is kept as its UTF-8 text, so
    decoding checks the bytes and keeps them. *)
Module Utf8.

Definition in_range (lo hi : N) (b : byte) : bool :=
  ((lo <=? Byte.to_N b) && (Byte.to_N b <=? hi))%N.

Definition continuation (b : byte) : bool := in_range 0x80 0xBF b.

(** The second byte of a three-byte sequence that starts with [b0]: no
    overlong form, no surrogate. *)
Definition second_of_3 (b0 b1 : byte) : bool :=
  if (Byte.to_N b0 =? 0xE0)%N then in_range 0xA0 0xBF b1
  else if (Byte.to_N b0 =? 0xED)%N then in_range 0x80 0x9F b1
  else continuation b1.

(** The second byte of a four-byte sequence that starts with [b0]: no
    overlong form, nothing above U+10FFFF. *)
Definition second_of_4 (b0 b1 : byte) : bool :=
  if (Byte.to_N b0 =? 0xF0)%N then in_range 0x90 0xBF b1
  else if (Byte.to_N b0 =? 0xF4)%N then in_range 0x80 0x8F b1
  else continuation b1.

Fixpoint valid (bs : list byte) : bool :=
  match bs with
  | [] => true
  | b0 :: rest =>
      if in_range 0x00 0x7F b0 then valid rest
      else if in_range 0xC2 0xDF b0 then
        match rest with
        | b1 :: rest1 => continuation b1 && valid rest1
        | _ => false
        end
      else if in_range 0xE0 0xEF b0 then
        match rest with
        | b1 :: b2 :: rest2 => second_of_3 b0 b1 && continuation b2 && valid rest2
        | _ => false
        end
      else if in_range 0xF0 0xF4 b0 then
        match rest with
        | b1 :: b2 :: b3 :: rest3 =>
            second_of_4 b0 b1 && continuation b2 && continuation b3 && valid rest3
        | _ => false
        end
      else false
  end.

Definition decode (bs : list byte) : exn + string :=
  if valid bs then inr (string_of_list_byte bs) else inl UnicodeDecodeError.

(** [s.encode()], to write the body of a response as text. *)
Definition encode (s : string) : list byte := list_byte_of_string s.

End Utf8.

(** A response as the client sees it: [json] is what calling [r.json()]
    gives, a parsed value or the exception it raises. *)
Record Response : Type := {
  status_code : Z;
  content : list byte;
  json : exn + value
}.

(** The keyword arguments of [requests.get]. *)
Record Request : Type := {
  url : string;
  params : option (gmap string value);
  headers : gmap string string
}.

Inductive level : Type := WARNING | INFO.

Record LogRecord : Type := {
  levelno : level;
  msg : string
}.

(** What one call leaves behind: the requests handed to the transport and the
    records handed to the module's logger, oldest first. *)
Record world : Type := {
  sent : list Request;
  logged : list LogRecord
}.

(** ** coingecko/coingecko.py *)

Record CoinGeckoAPIError : Type := {
  response : Response;
  message : string
}.

(** What a call of the client can raise. *)
Inductive raised : Type :=
  | Builtin (e : exn)
  | APIError (e : CoinGeckoAPIError).

(** Computations of the client: a result or a raised exception, and the
    world after. *)
Definition M (A : Type) : Type := world -> (raised + A) * world.

Definition ret {A : Type} (a : A) : M A := fun w => (inr a, w).

Definition raise {A : Type} (e : raised) : M A := fun w => (inl e, w).

Definition bind {A B : Type} (m : M A) (k : A -> M B) : M B :=
  fun w =>
    match m w with
    | (inl e, w') => (inl e, w')
    | (inr a, w') => k a w'
    end.

Notation "'let!' x ':=' m 'in' k" := (bind m (fun x => k))
  (at level 10, x name, m at level 100, k at level 200).
Notation "'run!' m 'in' k" := (bind m (fun _ => k))
  (at level 10, m at level 100, k at level 200).

(** A call into a library that returns or raises. *)
Definition call {A : Type} (r : exn + A) : M A :=
  match r with
  | inl e => raise (Builtin e)
  | inr a => ret a
  end.

(** [try: body except Exception: handler], for a library call. *)
Definition try_except {A : Type} (body : exn + A) (handler : A) : A :=
  match body with
  | inr a => a
  | inl _ => handler
  end.

(** [requests.get(url=..., params=..., headers=...)] against the transport
    [net]. *)
Definition requests_get (net : Request -> exn + Response) (req : Request) : M Response :=
  fun w =>
    let w' := {| sent := sent w ++ [req]; logged := logged w |} in
    call (net req) w'.

Definition logger_log (lv : level) (text : string) : M unit :=
  fun w =>
    (inr tt, {| sent := sent w; logged := logged w ++ [{| levelno := lv; msg := text |}] |}).

Definition logger_warning : string -> M unit := logger_log WARNING.
Definition logger_info : string -> M unit := logger_log INFO.

(** [value[key]] for a string key. *)
Fixpoint dict_getitem (items : list (string * value)) (key : string) : exn + value :=
  match items with
  | [] => inl (KeyError key)
  | (k, v) :: rest => if String.eqb k key then inr v else dict_getitem rest key
  end.

Definition getitem (v : value) (key : string) : exn + value :=
  match v with
  | VDict items => dict_getitem items key
  | _ => inl TypeError
  end.

Module CoinGeckoAPIError_.

(** [__str__] *)
Definition __str__ (self : CoinGeckoAPIError) : exn + string :=
  let content_ : exn + value :=
    match json (response self) with
    | inr parsed => getitem parsed "error"
    | inl JSONDecodeError =>
        match Utf8.decode (content (response self)) with
        | inr text => inr (VStr text)
        | inl e => inl e
        end
    | inl e => inl e
    end in
  match content_ with
  | inr c => inr (Py.str_int (status_code (response self)) ++ " " ++ Py.str c)
  | inl e => inl e
  end.

End CoinGeckoAPIError_.

(** Building the objects the endpoint methods pass on. *)

(** A [List[str]] argument. *)
Definition of_strs (l : list string) : value := VList (List.map VStr l).

(** An [Optional[...]] argument: [None] or the value itself. *)
Definition of_opt {A : Type} (inj : A -> value) (o : option A) : value :=
  match o with
  | Some a => inj a
  | None => VNone
  end.

(** A dict display [{k1: v1, k2: v2, ...}]: items are stored left to right. *)
Definition dict_display (items : list (string * value)) : gmap string value :=
  foldl (fun d kv => <[kv.1 := kv.2]> d) ∅ items.

(** The client object: [self.key] and [self.fail_silently]. *)
Record CoinGecko : Type := {
  key : option string;
  fail_silently : bool
}.

Module CoinGecko_.

Definition BASE_URL : string := "https://api.coingecko.com/api/v3/".

(** [CoinGecko(key=None, fail_silently=False)] *)
Definition __init__ (key : option string) (fail_silently : option bool) : CoinGecko :=
  {| key := key; fail_silently := default false fail_silently |}.

Definition _get_headers (self : CoinGecko) : gmap string string :=
  {[ "accept" := "application/json" ]}.

Definition _fail {A : Type} (self : CoinGecko) (r : Response) : M A :=
  raise (APIError {| response := r; message := EmptyString |}).

Section Pipeline.

(** The transport behind [requests.get]: what it answers to a request,
    a response or a raised exception. *)
Variable net : Request -> exn + Response.

Definition _get (self : CoinGecko) (path : string)
    (params : option (gmap string value)) : M value :=
  let! r := requests_get net
              {| url := BASE_URL ++ path;
                 params := Utils.clean_params params;
                 headers := _get_headers self |} in
  if (status_code r =? 200)%Z then call (json r)
  else
    let! text := call (Utf8.decode (content r)) in
    let details := try_except (json r) (VStr text) in
    if negb (fail_silently self) then
      run! logger_warning
             ("CoinGecko API error " ++ Py.str_int (status_code r) ++ " on "
                ++ path ++ ": " ++ Py.str details) in
      _fail self r
    else
      run! logger_info
             ("CoinGecko API silent error " ++ Py.str_int (status_code r) ++ " on "
                ++ path ++ ": " ++ Py.str details) in
      ret VNone.

Definition ping (self : CoinGecko) : M value :=
  _get self "ping" None.

Definition get_simple_price (self : CoinGecko)
    (ids vs_currencies : list string)
    (include_market_cap include_24hr_vol include_24hr_change
       include_last_updated_at : option bool) : M value :=
  _get self "simple/price"
    (Some (dict_display
       [("ids", of_strs ids);
        ("vs_currencies", of_strs vs_currencies);
        ("include_market_cap", of_opt VBool include_market_cap);
        ("include_24hr_vol", of_opt VBool include_24hr_vol);
        ("include_24hr_change", of_opt VBool include_24hr_change);
        ("include_last_updated_at", of_opt VBool include_last_updated_at)])).

Definition get_simple_token_price (self : CoinGecko) (id : string)
    (contract_addresses vs_currencies : list string)
    (include_market_cap include_24hr_vol include_24hr_change
       include_last_updated_at : option bool) : M value :=
  _get self "simple/token_price/{id}"
    (Some (dict_display
       [("contract_addresses", of_strs contract_addresses);
        ("vs_currencies", of_strs vs_currencies);
        ("include_market_cap", of_opt VBool include_market_cap);
        ("include_24hr_vol", of_opt VBool include_24hr_vol);
        ("include_24hr_change", of_opt VBool include_24hr_change);
        ("include_last_updated_at", of_opt VBool include_last_updated_at)])).

Definition get_simple_supported_vs_currencies (self : CoinGecko) : M value :=
  _get self "simple/supported_vs_currencies" None.

Definition get_coins_list (self : CoinGecko) (include_platform : option bool)
    : M value :=
  _get self "coins/list"
    (Some (dict_display
       [("include_platform",
         VStr (Py.lower (Py.str (of_opt VBool include_platform))))])).

Definition get_coins_markets (self : CoinGecko) (vs_currency : string)
    (ids : option (list string)) (category order : option string)
    (per_page page : option Z) (sparkline : option bool)
    (price_change_percentage : option (list string)) : M value :=
  _get self "coins/markets"
    (Some (dict_display
       [("vs_currency", VStr vs_currency);
        ("ids", of_opt of_strs ids);
        ("category", of_opt VStr category);
        ("order", of_opt VStr order);
        ("per_page", of_opt VInt per_page);
        ("page", of_opt VInt page);
        ("sparkline", of_opt VBool sparkline);
        ("price_change_percentage", of_opt of_strs price_change_percentage)])).

Definition get_coin_by_id (self : CoinGecko) (id : string)
    (localization tickers market_data community_data developer_data
       sparkline : option bool) : M value :=
  _get self ("coins/" ++ id)
    (Some (dict_display
       [("localization", of_opt VBool localization);
        ("tickers", of_opt VBool tickers);
        ("market_data", of_opt VBool market_data);
        ("community_data", of_opt VBool community_data);
        ("developer_data", of_opt VBool developer_data);
        ("sparkline", of_opt VBool sparkline)])).

Definition get_coin_tickers (self : CoinGecko) (id : string)
    (exchange_ids include_exchange_logo : option string) (page : option Z)
    (order depth : option string) : M value :=
  _get self ("coins/" ++ id ++ "/tickers")
    (Some (dict_display
       [("exchange_ids", of_opt VStr exchange_ids);
        ("include_exchange_logo", of_opt VStr include_exchange_logo);
        ("page", of_opt VInt page);
        ("order", of_opt VStr order);
        ("depth", of_opt VStr depth)])).

Definition get_coin_history (self : CoinGecko) (id date : string)
    (localization : option string) : M value :=
  _get self ("coins/" ++ id ++ "/history")
    (Some (dict_display
       [("date", VStr date);
        ("localization", of_opt VStr localization)])).

Definition get_coin_market_chart (self : CoinGecko) (id vs_currency days : string)
    (interval : option string) : M value :=
  _get self ("coins/" ++ id ++ "/market_chart")
    (Some (dict_display
       [("vs_currency", VStr vs_currency);
        ("days", VStr days);
        ("interval", of_opt VStr interval)])).

Definition get_coin_market_chart_range (self : CoinGecko)
    (id vs_currency from_param to : string) : M value :=
  _get self ("coins/" ++ id ++ "/market_chart/range")
    (Some (dict_display
       [("vs_currency", VStr vs_currency);
        ("from", VStr from_param);
        ("to", VStr to)])).

Definition get_coin_status_updates (self : CoinGecko) (id : string)
    (per_page page : option Z) : M value :=
  _get self ("coins/" ++ id ++ "/market_chart/range")
    (Some (dict_display
       [("per_page", of_opt VInt per_page);
        ("page", of_opt VInt page)])).

Definition get_coin_ohlc (self : CoinGecko) (id vs_currency days : string)
    : M value :=
  _get self ("coins/" ++ id ++ "/ohlc")
    (Some (dict_display
       [("vs_currency", VStr vs_currency);
        ("days", VStr days)])).

Definition get_coin_contract (self : CoinGecko) (id contract_address : string)
    : M value :=
  _get self ("coins/" ++ id ++ "/contract/" ++ contract_address) None.

Definition get_coin_contract_market_chart (self : CoinGecko)
    (id contract_address vs_currency days : string) : M value :=
  _get self ("coins/" ++ id ++ "/contract/" ++ contract_address ++ "/market_chart/")
    (Some (dict_display
       [("vs_currency", VStr vs_currency);
        ("days", VStr days)])).

Definition get_coin_contract_market_chart_range (self : CoinGecko)
    (id contract_address vs_currency : string) (from_param to : Z) : M value :=
  _get self ("coins/" ++ id ++ "/contract/" ++ contract_address ++ "/market_chart/")
    (Some (dict_display
       [("vs_currency", VStr vs_currency);
        ("from", VInt from_param);
        ("to", VInt to)])).

Definition get_asset_platforms (self : CoinGecko) : M value :=
  _get self "asset_platforms" None.

Definition get_coin_categories_list (self : CoinGecko) : M value :=
  _get self "coins/categories/list" None.

Definition get_coin_categories (self : CoinGecko) : M value :=
  _get self "coins/categories" None.

Definition get_exchanges (self : CoinGecko) : M value :=
  _get self "exchanges" None.

Definition get_exchanges_list (self : CoinGecko) : M value :=
  _get self "exchanges/list" None.

Definition get_exchange (self : CoinGecko) (id : string) : M value :=
  _get self "exchanges/{id}" None.

Definition get_exchange_tickets (self : CoinGecko) (id : string)
    (coin_ids : option (list string)) (include_exchange_logo : option string)
    (page : option Z) (depth order : option string) : M value :=
  _get self "exchanges/{id}/tickers"
    (Some (dict_display
       [("coin_ids", of_opt of_strs coin_ids);
        ("include_exchange_logo", of_opt VStr include_exchange_logo);
        ("page", of_opt VInt page);
        ("depth", of_opt VStr depth);
        ("order", of_opt VStr order)])).

Definition get_exchange_status_updates (self : CoinGecko) (id : string)
    (per_page page : option Z) : M value :=
  _get self "exchanges/{id}/status_updates"
    (Some (dict_display
       [("per_page", of_opt VInt per_page);
        ("page", of_opt VInt page)])).

Definition get_exchange_volume_chart (self : CoinGecko) (id : string) (days : Z)
    : M value :=
  _get self "exchanges/{id}/volume_chart"
    (Some (dict_display [("days", VInt days)])).

Definition get_finance_platforms (self : CoinGecko) (per_page page : option Z)
    : M value :=
  _get self "finance_platforms"
    (Some (dict_display
       [("per_page", of_opt VInt per_page);
        ("page", of_opt VInt page)])).

Definition get_finance_products (self : CoinGecko) (per_page page : option Z)
    (start_at end_at : option string) : M value :=
  _get self "finance_platforms"
    (Some (dict_display
       [("per_page", of_opt VInt per_page);
        ("page", of_opt VInt page);
        ("start_at", of_opt VStr start_at);
        ("end_at", of_opt VStr end_at)])).

Definition get_indexes (self : CoinGecko) : M value :=
  _get self "indexes" None.

Definition get_indexes_by_market_id (self : CoinGecko) (market_id id : string)
    : M value :=
  _get self "indexes/{market_id}/{id}" None.

Definition get_indexes_list (self : CoinGecko) : M value :=
  _get self "indexes/list" None.

Definition get_derivatives (self : CoinGecko) : M value :=
  _get self "derivatives" None.

Definition get_derivatives_exchanges (self : CoinGecko) : M value :=
  _get self "derivatives/exchanges" None.

Definition get_derivatives_exchange (self : CoinGecko) (id : string)
    (include_tickers : option string) : M value :=
  _get self "derivatives/exchanges/{id}"
    (Some (dict_display [("include_tickers", of_opt VStr include_tickers)])).

Definition get_derivatives_exchanges_list (self : CoinGecko) : M value :=
  _get self "derivatives/exchanges/list" None.

Definition get_status_updates (self : CoinGecko)
    (category project_type : option string) (per_page page : option Z)
    : M value :=
  _get self "status_updates"
    (Some (dict_display
       [("category", of_opt VStr category);
        ("project_type", of_opt VStr project_type);
        ("per_page", of_opt VInt per_page);
        ("page", of_opt VInt page)])).

Definition get_events (self : CoinGecko)
    (country_code event_type : option string) (page : option Z)
    (upcoming_events_only from_date to_date : option string) : M value :=
  _get self "events"
    (Some (dict_display
       [("country_code", of_opt VStr country_code);
        ("type", of_opt VStr event_type);
        ("page", of_opt VInt page);
        ("upcoming_events_only", of_opt VStr upcoming_events_only);
        ("from_date", of_opt VStr from_date);
        ("to_date", of_opt VStr to_date)])).

Definition get_events_countries (self : CoinGecko) : M value :=
  _get self "events/countries" None.

Definition get_events_types (self : CoinGecko) : M value :=
  _get self "events/types" None.

Definition get_events_exchange_rates (self : CoinGecko) : M value :=
  _get self "exchange_rates" None.

Definition get_search_trending (self : CoinGecko) : M value :=
  _get self "search/trending" None.

Definition get_global (self : CoinGecko) : M value :=
  _get self "global" None.

Definition get_global_decentralized_finance_defi (self : CoinGecko) : M value :=
  _get self "global/decentralized_finance_defi" None.

Definition get_companies (self : CoinGecko) (coin_id : string) : M value :=
  _get self "companies/public_treasury/{coin_id}" None.

End Pipeline.

End CoinGecko_.

(** ** Vocabulary of the statements *)

Module Spec.

(** The request [_get] hands to the transport for a path and raw parameters. *)
Definition request_of (self : CoinGecko) (path : string)
    (params : option (gmap string value)) : Request :=
  {| url := CoinGecko_.BASE_URL ++ path;
     params := Utils.clean_params params;
     headers := CoinGecko_._get_headers self |}.

(** The world after one more request went out. *)
Definition after_request (w : world) (req : Request) : world :=
  {| sent := sent w ++ [req]; logged := logged w |}.

(** The world after one more record was logged. *)
Definition after_log (w : world) (lv : level) (text : string) : world :=
  {| sent := sent w; logged := logged w ++ [{| levelno := lv; msg := text |}] |}.

(** The specification's comma join: the first part, then every further part
    behind one comma; nothing before the first part, nothing after the last. *)
Definition comma_separated (parts : list string) : string :=
  match parts with
  | [] => EmptyString
  | p :: rest => p ++ fold_right (fun x acc => "," ++ x ++ acc) EmptyString rest
  end.

End Spec.

(** ** Inputs of the scenarios *)

Module Scenario.

Definition w0 : world := {| sent := []; logged := [] |}.

Definition api : CoinGecko := CoinGecko_.__init__ None None.
Definition api_silent : CoinGecko := CoinGecko_.__init__ None (Some true).

(** Status 200, body [{}]. *)
Definition ok_empty : Response :=
  {| status_code := 200; content := Utf8.encode "{}"; json := inr (VDict []) |}.

(** The response of [test_get_404_status]. *)
Definition not_found : Response :=
  {| status_code := 404;
     content := Utf8.encode "404 Not Found Message";
     json := inr (VDict [("error", VStr "Not Found")]) |}.

(** The response of [test_fail_with_no_json]. *)
Definition not_found_text : Response :=
  {| status_code := 404;
     content := Utf8.encode "Not Found Message Content";
     json := inl JSONDecodeError |}.

(** Status 200 with a body that is no JSON. *)
Definition ok_not_json : Response :=
  {| status_code := 200;
     content := Utf8.encode "<html></html>";
     json := inl JSONDecodeError |}.

(** Status 500 with the one-byte body 0xff, which is no UTF-8 text. *)
Definition undecodable : Response :=
  {| status_code := 500; content := [Byte.xff]; json := inl JSONDecodeError |}.

(** Status 404 with the JSON body [{}]: an object with no [error] member. *)
Definition no_error_field : Response :=
  {| status_code := 404; content := Utf8.encode "{}"; json := inr (VDict []) |}.

(** A transport that answers every request with [r]. *)
Definition always (r : Response) : Request -> exn + Response := fun _ => inr r.

(** [CoinGeckoAPIError(response=r)] *)
Definition error_of (r : Response) : CoinGeckoAPIError :=
  {| response := r; message := EmptyString |}.

(** The mapping of [test_clean_params], and what cleaning makes of it. *)
Definition sample : gmap string value :=
  dict_display [("a", VNone); ("b", VList [VStr "foo"; VStr "bar"]); ("c", VBool true)].

Definition sample_clean : gmap string value :=
  {[ "b" := VStr "foo,bar"; "c" := VStr "true" ]}.

(** A mapping whose only value is [None]. *)
Definition only_absent : gmap string value := dict_display [("a", VNone)].

End Scenario.

(** ** Further inputs and renderings *)

Module Inputs.

(** A transport that cannot reach the server. *)
Definition refusing : Request -> exn + Response := fun _ => inl ConnectionError.


(** Status 500 with the JSON body [[]]: valid JSON, no object. *)
Definition not_an_object : Response :=
  {| status_code := 500; content := Utf8.encode "[]"; json := inr (VList []) |}.

(** What cleaning leaves for a flag that was given. *)
Definition flag_text (b : bool) : value := VStr (if b then "true" else "false").

End Inputs.

(** ** Where [Py.str] is Python's [str] *)

Module Exact.

(** Text of ASCII characters only. *)
Fixpoint ascii_text (s : string) : bool :=
  match s with
  | EmptyString => true
  | String c s' => (N_of_ascii c <? 128)%N && ascii_text s'
  end.

(** Values on which [Py.repr], and so [Py.str], gives what Python gives:
    every text in them, keys included, is ASCII, and every [int] is short
    enough for Python to print (fewer than 4301 digits, the default limit of
    the conversion). *)
Fixpoint exact_str (v : value) : bool :=
  match v with
  | VNone => true
  | VBool _ => true
  | VInt z => (Z.abs z <? 10 ^ 4300)%Z
  | VStr s => ascii_text s
  | VList l => forallb exact_str l
  | VDict items =>
      forallb (fun kv => let '(k, x) := kv in ascii_text k && exact_str x) items
  end.

(** The record [_get] hands to the logger for a response it takes as an
    error, given the rendered details. *)
Definition error_record (silent : bool) (status : Z) (path details : string)
    : LogRecord :=
  {| levelno := if silent then INFO else WARNING;
     msg := (if silent then "CoinGecko API silent error " else "CoinGecko API error ")
            ++ Py.str_int status ++ " on " ++ path ++ ": " ++ details |}.

End Exact.

Import Utils CoinGecko_ CoinGeckoAPIError_ Spec Scenario.
Import Inputs.
Import Exact.

(** * The parameter normalizer *)

Section Normalizer.

Implicit Types (dic out : gmap string value) (k key : string) (v : value).

Lemma remove_empty_lookup dic k :
  remove_empty_dict_values dic !! k =
    match dic !! k with
    | Some v => if is_none v then None else Some v
    | None => None
    end.
Proof.
  unfold remove_empty_dict_values.
  destruct (dic !! k) as [v|] eqn:E.
  - destruct (is_none v) eqn:Hn.
    + apply map_lookup_filter_None_2. right. intros x Hx. simpl. congruence.
    + by apply map_lookup_filter_Some_2.
  - apply map_lookup_filter_None_2. by left.
Qed.

(** The loop, started on any dict [base]: a key of [dic] that holds a bool or
    a list is assigned, every other key keeps what [base] has. *)
Lemma clean_dict_fold_lookup (base : gmap string value) dic k :
  map_fold clean_dict_step base dic !! k =
    match dic !! k with
    | Some v => if is_raw v then Some (clean_value v) else base !! k
    | None => base !! k
    end.
Proof.
  revert k.
  apply (map_fold_weak_ind (fun (r m : gmap string value) =>
    forall k, r !! k = match m !! k with
                       | Some v => if is_raw v then Some (clean_value v) else base !! k
                       | None => base !! k
                       end)).
  - intros k. by rewrite lookup_empty.
  - intros i x m r Hfresh IH k.
    destruct (decide (i = k)) as [->|Hne].
    + rewrite lookup_insert_eq.
      destruct x; simpl; rewrite ?lookup_insert_eq; try done;
        rewrite IH, Hfresh; done.
    + rewrite lookup_insert_ne by done.
      destruct x; simpl; rewrite ?lookup_insert_ne by done; apply IH.
Qed.

Lemma clean_dict_values_lookup dic k :
  clean_dict_values dic !! k = clean_value <$> dic !! k.
Proof.
  unfold clean_dict_values. rewrite clean_dict_fold_lookup.
  destruct (dic !! k) as [v|] eqn:E; simpl; [|done].
  destruct v; simpl; done.
Qed.

(** In place or not, the loop is a map over the values. *)
Lemma clean_dict_values_fmap dic : clean_dict_values dic = clean_value <$> dic.
Proof. apply map_eq. intros k. by rewrite clean_dict_values_lookup, lookup_fmap. Qed.

Lemma clean_value_is_none v : is_none (clean_value v) = is_none v.
Proof. by destruct v. Qed.

Lemma clean_value_is_raw v : is_raw (clean_value v) = false.
Proof. by destruct v. Qed.

Lemma clean_value_fixed v : is_raw v = false -> clean_value v = v.
Proof. by destruct v. Qed.

Lemma truthy_Some dic : truthy (Some dic) = true <-> dic ≠ ∅.
Proof.
  unfold truthy. rewrite negb_true_iff, Nat.eqb_neq. apply map_size_non_empty_iff.
Qed.

Lemma clean_params_nonempty dic :
  dic ≠ ∅ ->
  clean_params (Some dic) = Some (clean_dict_values (remove_empty_dict_values dic)).
Proof.
  intros Hne. unfold clean_params.
  apply truthy_Some in Hne. by rewrite Hne.
Qed.

Lemma clean_params_Some_inv (params : option (gmap string value)) out :
  clean_params params = Some out ->
  exists dic, params = Some dic /\ dic ≠ ∅
    /\ out = clean_dict_values (remove_empty_dict_values dic).
Proof.
  unfold clean_params. destruct (truthy params) eqn:Ht; simpl; [|done].
  destruct params as [dic|]; [|done].
  intros [= <-]. exists dic. split; [done|]. split; [|done].
  by apply truthy_Some.
Qed.

Lemma cleaned_lookup dic k :
  clean_dict_values (remove_empty_dict_values dic) !! k =
    match dic !! k with
    | Some v => if is_none v then None else Some (clean_value v)
    | None => None
    end.
Proof.
  rewrite clean_dict_values_lookup, remove_empty_lookup.
  destruct (dic !! k) as [v|]; [|done]. by destruct (is_none v).
Qed.

Lemma cleaned_is_clean dic k v :
  clean_dict_values (remove_empty_dict_values dic) !! k = Some v ->
  is_none v = false /\ is_raw v = false.
Proof.
  rewrite cleaned_lookup. destruct (dic !! k) as [x|]; [|done].
  destruct (is_none x) eqn:Hx; [done|]. intros [= <-].
  by rewrite clean_value_is_none, clean_value_is_raw.
Qed.

Lemma clean_fixpoint out :
  (forall k v, out !! k = Some v -> is_none v = false /\ is_raw v = false) ->
  clean_dict_values (remove_empty_dict_values out) = out.
Proof.
  intros Hout. apply map_eq. intros k. rewrite cleaned_lookup.
  destruct (out !! k) as [v|] eqn:E; [|done].
  destruct (Hout k v E) as [-> Hraw]. by rewrite clean_value_fixed.
Qed.

Lemma append_empty_r (s : string) : s ++ EmptyString = s.
Proof. induction s as [|c s IH]; [done|]. exact (f_equal (String c) IH). Qed.

(** Python's [join] on a comma is the specification's comma join. *)
Lemma join_comma_separated (parts : list string) :
  Py.join "," parts = comma_separated parts.
Proof.
  destruct parts as [|p rest]; [done|]. revert p.
  induction rest as [|q rest IH]; intros p.
  - simpl. symmetry. apply append_empty_r.
  - change (Py.join "," (p :: q :: rest)) with (p ++ "," ++ Py.join "," (q :: rest)).
    rewrite IH. reflexivity.
Qed.

End Normalizer.

(** ** Claims about the normalizer *)

(** C2, as the code has it: [clean_params] applied to its own output gives
    that output again, unless the output is the empty mapping; and when the
    input has keys and every value is [None], the output is the empty
    mapping and cleaning that once more gives [None]. *)
Theorem clean_params_idempotent_unless_empty (params : option (gmap string value)) :
  (clean_params params ≠ Some ∅ ->
     clean_params (clean_params params) = clean_params params)
  /\ (forall dic : gmap string value,
        params = Some dic -> dic ≠ ∅ ->
        (forall k v, dic !! k = Some v -> v = VNone) ->
        clean_params params = Some ∅
        /\ clean_params (clean_params params) = None).
Proof.
  split.
  - intros Hne. destruct (clean_params params) as [out|] eqn:E; [|done].
    destruct (clean_params_Some_inv _ _ E) as (dic & -> & Hdic & Hout).
    rewrite clean_params_nonempty by congruence.
    f_equal. apply clean_fixpoint. intros k v. rewrite Hout. apply cleaned_is_clean.
  - intros dic -> Hne Hall.
    assert (E : clean_params (Some dic) = Some ∅).
    { rewrite clean_params_nonempty by done. f_equal.
      apply map_eq. intros k. rewrite cleaned_lookup, lookup_empty.
      destruct (dic !! k) as [v|] eqn:Hk; [|done]. by rewrite (Hall k v Hk). }
    split; [exact E|]. rewrite E. reflexivity.
Qed.

Lemma clean_params_idempotent_witness :
  (clean_params (Some sample) ≠ Some ∅
   /\ clean_params (clean_params (Some sample)) = clean_params (Some sample))
  /\ (clean_params (Some only_absent) = Some ∅
      /\ clean_params (clean_params (Some only_absent)) = None).
Proof.
  split.
  - assert (H : clean_params (Some sample) ≠ Some ∅) by (vm_compute; discriminate).
    split; [exact H|].
    exact (proj1 (clean_params_idempotent_unless_empty (Some sample)) H).
  - apply (proj2 (clean_params_idempotent_unless_empty (Some only_absent))
             only_absent eq_refl).
    + vm_compute. discriminate.
    + intros k v. unfold only_absent, dict_display. simpl.
      intros [[_ <-]|[_ H]]%lookup_insert_Some; [done|]. by rewrite lookup_empty in H.
Defined.

(** C2 fails as stated: for [{a: None}], cleaning gives the empty mapping, and
    cleaning the empty mapping gives [None]. *)
Lemma clean_params_not_idempotent :
  clean_params (Some only_absent) = Some ∅
  /\ clean_params (clean_params (Some only_absent)) = None.
Proof. split; reflexivity. Qed.

(** C5: a mapping that [clean_params] produces has no [None] value and no
    raw bool or list; it has no key under which the input held [None], and
    a string under every key where the input held a bool or a list. *)
Theorem clean_params_invariant (params : option (gmap string value))
    (out : gmap string value) :
  clean_params params = Some out ->
  exists dic, params = Some dic
    /\ (forall k v, out !! k = Some v -> is_none v = false /\ is_raw v = false)
    /\ (forall k, dic !! k = Some VNone -> out !! k = None)
    /\ (forall k v, dic !! k = Some v -> is_raw v = true ->
          exists s, out !! k = Some (VStr s)).
Proof.
  intros E. destruct (clean_params_Some_inv _ _ E) as (dic & -> & _ & ->).
  exists dic. split; [done|]. split; [|split].
  - intros k v. apply cleaned_is_clean.
  - intros k Hk. by rewrite cleaned_lookup, Hk.
  - intros k v Hk Hraw. rewrite cleaned_lookup, Hk.
    destruct v; try done; simpl; eauto.
Qed.

Lemma clean_params_invariant_witness :
  exists dic, Some sample = Some dic
    /\ (forall k v, sample_clean !! k = Some v -> is_none v = false /\ is_raw v = false)
    /\ (forall k, dic !! k = Some VNone -> sample_clean !! k = None)
    /\ (forall k v, dic !! k = Some v -> is_raw v = true ->
          exists s, sample_clean !! k = Some (VStr s)).
Proof.
  apply (clean_params_invariant (Some sample) sample_clean). reflexivity.
Defined.

(** C6: under a key that holds [v], [clean_dict_values] leaves "true" or
    "false" for a bool, the comma join of the elements' [str] for a list
    (so "a,b,c" for ["a", "b", "c"]), and [v] itself for anything else. *)
Theorem clean_dict_values_entry (dic : gmap string value) (key : string) (v : value) :
  dic !! key = Some v ->
  (forall b, v = VBool b ->
     clean_dict_values dic !! key = Some (VStr (if b then "true" else "false")))
  /\ (forall l, v = VList l ->
     clean_dict_values dic !! key = Some (VStr (comma_separated (List.map Py.str l))))
  /\ (forall a b c, v = VList [VStr a; VStr b; VStr c] ->
     clean_dict_values dic !! key = Some (VStr (a ++ "," ++ b ++ "," ++ c)))
  /\ (is_raw v = false -> clean_dict_values dic !! key = Some v).
Proof.
  intros Hk. rewrite clean_dict_values_lookup, Hk. simpl. repeat split.
  - intros b ->. by destruct b.
  - intros l ->. simpl. by rewrite join_comma_separated.
  - intros a b c ->. reflexivity.
  - intros Hraw. by rewrite clean_value_fixed.
Qed.

Lemma clean_dict_values_entry_witness :
  clean_dict_values sample !! "c" = Some (VStr "true")
  /\ clean_dict_values sample !! "b" = Some (VStr "foo,bar")
  /\ clean_dict_values sample !! "a" = Some VNone.
Proof.
  split; [|split].
  - exact (proj1 (clean_dict_values_entry sample "c" (VBool true) eq_refl) true eq_refl).
  - exact (proj1 (proj2 (clean_dict_values_entry sample "b"
             (VList [VStr "foo"; VStr "bar"]) eq_refl)) _ eq_refl).
  - exact (proj2 (proj2 (proj2 (clean_dict_values_entry sample "a" VNone eq_refl)))
             eq_refl).
Defined.

(** C8, as the code has it: [None] and the empty mapping both give [None];
    a mapping with at least one key gives a mapping, the cleaned one, which
    has no key under which the input held [None]. *)
Theorem clean_params_contract :
  clean_params None = None
  /\ clean_params (Some ∅) = None
  /\ (forall dic : gmap string value, dic ≠ ∅ ->
        exists out, clean_params (Some dic) = Some out
          /\ out = clean_dict_values (remove_empty_dict_values dic)
          /\ (forall k, dic !! k = Some VNone -> out !! k = None)).
Proof.
  split; [done|]. split; [done|].
  intros dic Hne. eexists. split; [by apply clean_params_nonempty|]. split; [done|].
  intros k Hk. by rewrite cleaned_lookup, Hk.
Qed.

Lemma clean_params_contract_witness :
  exists out, clean_params (Some sample) = Some out
    /\ out = clean_dict_values (remove_empty_dict_values sample)
    /\ (forall k, sample !! k = Some VNone -> out !! k = None).
Proof.
  apply (proj2 (proj2 clean_params_contract) sample).
  vm_compute. discriminate.
Defined.

(** C8 fails as stated: the empty mapping is a mapping, and its output is
    [None]. *)
Lemma clean_params_present_empty : clean_params (Some (∅ : gmap string value)) = None.
Proof. reflexivity. Qed.

(** * The request client *)

Section Client.

Variable net : Request -> exn + Response.
Variable self : CoinGecko.

Implicit Types (path : string) (w : world) (r : Response).

(** [_get], one branch at a time. *)
Lemma _get_unfold path (params : option (gmap string value)) w :
  _get net self path params w =
    match net (request_of self path params) with
    | inl e => (inl (Builtin e), after_request w (request_of self path params))
    | inr r =>
        if (status_code r =? 200)%Z then
          (match json r with inl e => inl (Builtin e) | inr v => inr v end,
           after_request w (request_of self path params))
        else
          match Utf8.decode (content r) with
          | inl e => (inl (Builtin e), after_request w (request_of self path params))
          | inr text =>
              let details := try_except (json r) (VStr text) in
              if fail_silently self then
                (inr VNone,
                 after_log (after_request w (request_of self path params)) INFO
                   ("CoinGecko API silent error " ++ Py.str_int (status_code r) ++ " on "
                      ++ path ++ ": " ++ Py.str details))
              else
                (inl (APIError (error_of r)),
                 after_log (after_request w (request_of self path params)) WARNING
                   ("CoinGecko API error " ++ Py.str_int (status_code r) ++ " on "
                      ++ path ++ ": " ++ Py.str details))
          end
    end.
Proof.
  unfold _get, bind, requests_get, request_of, after_request, after_log.
  destruct (net _) as [e|r]; simpl; [done|].
  destruct (status_code r =? 200)%Z; simpl.
  { by destruct (json r). }
  destruct (Utf8.decode (content r)) as [e|text]; simpl; [done|].
  by destruct (fail_silently self).
Qed.

(** Every call hands exactly one request to the transport, whatever comes
    back. *)
Lemma _get_sent path (params : option (gmap string value)) w :
  sent (snd (_get net self path params w))
  = (sent w ++ [request_of self path params])%list.
Proof.
  rewrite _get_unfold.
  destruct (net _) as [e|r]; simpl; [done|].
  destruct (status_code r =? 200)%Z; simpl; [done|].
  destruct (Utf8.decode (content r)); simpl; [done|].
  by destruct (fail_silently self).
Qed.

(** C1, as the code has it. With status 200 the call returns what [r.json()]
    returns, and raises what it raises. With another status and a body that
    decodes as text: one WARNING record and a raised [CoinGeckoAPIError] when
    [fail_silently] is false, one INFO record and [None] when it is true. *)
Theorem get_classifies_response path (params : option (gmap string value)) w r :
  net (request_of self path params) = inr r ->
  (status_code r = 200%Z ->
     (forall v, json r = inr v ->
        _get net self path params w
          = (inr v, after_request w (request_of self path params)))
     /\ (forall e, json r = inl e ->
        _get net self path params w
          = (inl (Builtin e), after_request w (request_of self path params))))
  /\ (status_code r <> 200%Z -> forall text, Utf8.decode (content r) = inr text ->
        (fail_silently self = false ->
           exists m,
             _get net self path params w =
               (inl (APIError (error_of r)),
                after_log (after_request w (request_of self path params)) WARNING m))
        /\ (fail_silently self = true ->
           exists m,
             _get net self path params w =
               (inr VNone,
                after_log (after_request w (request_of self path params)) INFO m))).
Proof.
  intros Hnet. split.
  - intros Hst. split.
    + intros v Hv. rewrite _get_unfold, Hnet, Hst, Hv. reflexivity.
    + intros e He. rewrite _get_unfold, Hnet, Hst, He. reflexivity.
  - intros Hst text Htext.
    apply Z.eqb_neq in Hst.
    split; intros Hfs; eexists; rewrite _get_unfold, Hnet, Hst, Htext, Hfs; reflexivity.
Qed.

End Client.

Lemma get_classifies_response_witness :
  _get (always ok_empty) api "ping" None w0
    = (inr (VDict []), after_request w0 (request_of api "ping" None))
  /\ (exists m, _get (always not_found) api "test" None w0
        = (inl (APIError (error_of not_found)),
           after_log (after_request w0 (request_of api "test" None)) WARNING m))
  /\ (exists m, _get (always not_found) api_silent "test" None w0
        = (inr VNone,
           after_log (after_request w0 (request_of api_silent "test" None)) INFO m)).
Proof.
  split; [|split].
  - exact (proj1 (proj1 (get_classifies_response (always ok_empty) api "ping" None w0
                           ok_empty eq_refl) eq_refl) (VDict []) eq_refl).
  - refine (proj1 (proj2 (get_classifies_response (always not_found) api "test" None w0
                            not_found eq_refl) _ "404 Not Found Message" eq_refl) eq_refl).
    discriminate.
  - refine (proj2 (proj2 (get_classifies_response (always not_found) api_silent "test"
                            None w0 not_found eq_refl) _ "404 Not Found Message" eq_refl)
              eq_refl).
    discriminate.
Defined.

(** C1 fails as stated: status 200 with a body that is no JSON raises the
    decode error instead of returning, and a non-200 body that is no UTF-8
    text raises before anything is logged. *)
Lemma get_raises_decode_errors :
  _get (always ok_not_json) api "ping" None w0
    = (inl (Builtin JSONDecodeError), after_request w0 (request_of api "ping" None))
  /\ _get (always undecodable) api "ping" None w0
    = (inl (Builtin UnicodeDecodeError), after_request w0 (request_of api "ping" None)).
Proof. split; reflexivity. Qed.

(** ** Rendering a [CoinGeckoAPIError] *)

(** C4, as the code has it: when the body parses as a JSON object that has
    an [error] member, the rendering is the status code, a space and the
    [str] of that member; when parsing raises the decode error and the body
    decodes as text, it is the status code, a space and that text. *)
Theorem str_of_api_error (e : CoinGeckoAPIError) :
  (forall items detail,
      json (response e) = inr (VDict items) ->
      dict_getitem items "error" = inr detail ->
      __str__ e = inr (Py.str_int (status_code (response e)) ++ " " ++ Py.str detail))
  /\ (forall text,
      json (response e) = inl JSONDecodeError ->
      Utf8.decode (content (response e)) = inr text ->
      __str__ e = inr (Py.str_int (status_code (response e)) ++ " " ++ text))
  /\ __str__ (error_of not_found) = inr "404 Not Found"
  /\ __str__ (error_of not_found_text) = inr "404 Not Found Message Content".
Proof.
  unfold __str__. repeat split.
  - intros items detail -> Hd. simpl. by rewrite Hd.
  - intros text -> Ht. by rewrite Ht.
Qed.

Lemma str_of_api_error_witness :
  __str__ (error_of not_found) = inr "404 Not Found"
  /\ __str__ (error_of not_found_text) = inr "404 Not Found Message Content".
Proof.
  split.
  - exact (proj1 (str_of_api_error (error_of not_found))
             [("error", VStr "Not Found")] (VStr "Not Found") eq_refl eq_refl).
  - exact (proj1 (proj2 (str_of_api_error (error_of not_found_text)))
             "Not Found Message Content" eq_refl eq_refl).
Defined.

(** C4 fails as stated: a body that parses as JSON and has no [error] member
    gives no rendering but a [KeyError], and a body that neither parses nor
    decodes gives a [UnicodeDecodeError]. *)
Lemma str_of_api_error_raises :
  __str__ (error_of no_error_field) = inl (KeyError "error")
  /\ __str__ (error_of undecodable) = inl UnicodeDecodeError.
Proof. split; reflexivity. Qed.

(** C10: there is a non-200 response whose body parses as JSON without an
    [error] member, for which [_get] raises the error and rendering it
    raises [KeyError]. The body text is the rendering's source only behind
    the decode error: when parsing succeeds the rendering is decided by the
    subscript alone, and any other exception of [r.json()] goes through. *)
Theorem str_without_error_field_raises :
  (exists r : Response,
      status_code r <> 200%Z
      /\ (exists items, json r = inr (VDict items)
            /\ dict_getitem items "error" = inl (KeyError "error"))
      /\ (forall net self path params w,
            net (request_of self path params) = inr r ->
            fail_silently self = false ->
            fst (_get net self path params w) = inl (APIError (error_of r)))
      /\ __str__ (error_of r) = inl (KeyError "error"))
  /\ (forall e parsed,
        json (response e) = inr parsed ->
        __str__ e =
          match getitem parsed "error" with
          | inr detail =>
              inr (Py.str_int (status_code (response e)) ++ " " ++ Py.str detail)
          | inl x => inl x
          end)
  /\ (forall e x,
        json (response e) = inl x -> x <> JSONDecodeError -> __str__ e = inl x).
Proof.
  split; [|split].
  - exists no_error_field. split; [discriminate|]. split; [by exists []|]. split; [|done].
    intros net self path params w Hnet Hfs.
    rewrite _get_unfold, Hnet, Hfs. reflexivity.
  - intros e parsed Hp. unfold __str__. by rewrite Hp.
  - intros e x Hx Hne. unfold __str__. rewrite Hx. by destruct x.
Qed.

(** ** Endpoint methods *)

(** C7: the call of scenario E hands the transport exactly one request, to
    [simple/price], with the two cleaned parameters and no other key. *)
Theorem get_simple_price_request (net : Request -> exn + Response) (self : CoinGecko)
    (w : world) :
  sent (snd (get_simple_price net self ["bitcoin"; "ethereum"] ["usd"]
               None None None None w))
  = (sent w ++
      [{| url := "https://api.coingecko.com/api/v3/simple/price";
          params := Some {[ "ids" := VStr "bitcoin,ethereum";
                            "vs_currencies" := VStr "usd" ]};
          headers := {[ "accept" := "application/json" ]} |}])%list.
Proof. unfold get_simple_price. rewrite _get_sent. reflexivity. Qed.

(** C9: [get_coins_list] with no argument sends [include_platform] as the
    string "none": the argument is a string before cleaning sees it. *)
Theorem get_coins_list_none_request (net : Request -> exn + Response) (self : CoinGecko)
    (w : world) :
  sent (snd (get_coins_list net self None w))
  = (sent w ++
      [{| url := "https://api.coingecko.com/api/v3/coins/list";
          params := Some {[ "include_platform" := VStr "none" ]};
          headers := {[ "accept" := "application/json" ]} |}])%list.
Proof. unfold get_coins_list. rewrite _get_sent. reflexivity. Qed.

(** The methods on a coin fill the identifier into the path. *)
Lemma get_coin_by_id_path (net : Request -> exn + Response) (self : CoinGecko)
    (w : world) (id : string) (l t m c d s : option bool) :
  url <$> last (sent (snd (get_coin_by_id net self id l t m c d s w)))
  = Some ("https://api.coingecko.com/api/v3/coins/" ++ id).
Proof.
  unfold get_coin_by_id. rewrite _get_sent, last_snoc. reflexivity.
Qed.

(** C3 does not hold of the code: [get_exchange], [get_indexes_by_market_id]
    and [get_companies] send their path templates as they stand, braces
    included, whatever the arguments are. *)
Theorem path_templates_sent_unfilled (net : Request -> exn + Response)
    (self : CoinGecko) (w : world) (id market_id coin_id : string) :
  sent (snd (get_exchange net self id w))
    = (sent w ++
        [{| url := "https://api.coingecko.com/api/v3/exchanges/{id}";
            params := None;
            headers := {[ "accept" := "application/json" ]} |}])%list
  /\ sent (snd (get_indexes_by_market_id net self market_id id w))
    = (sent w ++
        [{| url := "https://api.coingecko.com/api/v3/indexes/{market_id}/{id}";
            params := None;
            headers := {[ "accept" := "application/json" ]} |}])%list
  /\ sent (snd (get_companies net self coin_id w))
    = (sent w ++
        [{| url := "https://api.coingecko.com/api/v3/companies/public_treasury/{coin_id}";
            params := None;
            headers := {[ "accept" := "application/json" ]} |}])%list.
Proof. repeat split; apply _get_sent. Qed.

(** * Further properties of the normalizer *)

(** X1: [remove_empty_dict_values] returns a part of its input: exactly the
    entries whose value is not [None], each with its value unchanged. *)
Theorem remove_empty_dict_values_exact (dic : gmap string value) :
  remove_empty_dict_values dic ⊆ dic
  /\ (forall k v, remove_empty_dict_values dic !! k = Some v
                  <-> dic !! k = Some v /\ v <> VNone).
Proof.
  split.
  - apply map_filter_subseteq.
  - intros k v. rewrite remove_empty_lookup.
    destruct (dic !! k) as [x|]; [|by split; [|intros [? _]]].
    destruct x; simpl;
      (split; [try done; by intros [= <-] | by intros [[= <-] Hv]]).
Qed.

(** X2: [clean_dict_values] keeps the keys it was given, all of them; a
    [None] value is not its business and stays. *)
Theorem clean_dict_values_keeps_keys (dic : gmap string value) :
  dom (clean_dict_values dic) = dom dic
  /\ size (clean_dict_values dic) = size dic
  /\ (forall k, dic !! k = Some VNone -> clean_dict_values dic !! k = Some VNone).
Proof.
  rewrite clean_dict_values_fmap. split; [|split].
  - apply dom_fmap_L.
  - apply map_size_fmap.
  - intros k Hk. by rewrite lookup_fmap, Hk.
Qed.

(** X3: [clean_dict_values] is idempotent on every dict. *)
Theorem clean_dict_values_idempotent (dic : gmap string value) :
  clean_dict_values (clean_dict_values dic) = clean_dict_values dic.
Proof.
  rewrite !clean_dict_values_fmap, <- map_fmap_compose.
  apply map_fmap_ext. intros k v _. simpl.
  apply clean_value_fixed, clean_value_is_raw.
Qed.

(** X4: the two steps of [clean_params] commute. *)
Theorem clean_steps_commute (dic : gmap string value) :
  clean_dict_values (remove_empty_dict_values dic)
  = remove_empty_dict_values (clean_dict_values dic).
Proof.
  apply map_eq. intros k.
  rewrite cleaned_lookup, remove_empty_lookup, clean_dict_values_lookup.
  destruct (dic !! k) as [v|]; simpl; [|done].
  by rewrite clean_value_is_none.
Qed.

(** X5: a mapping that has keys, all of them with value [None], is cleaned
    to the empty mapping, not to [None]. *)
Theorem clean_params_all_absent (dic : gmap string value) :
  dic ≠ ∅ ->
  (forall k v, dic !! k = Some v -> v = VNone) ->
  clean_params (Some dic) = Some ∅.
Proof.
  intros Hne Hall. rewrite clean_params_nonempty by done. f_equal.
  apply map_eq. intros k. rewrite cleaned_lookup, lookup_empty.
  destruct (dic !! k) as [v|] eqn:E; [|done]. by rewrite (Hall k v E).
Qed.

Lemma clean_params_all_absent_witness :
  clean_params (Some only_absent) = Some ∅.
Proof.
  apply clean_params_all_absent.
  - vm_compute. discriminate.
  - intros k v. unfold only_absent, dict_display. simpl.
    intros [[_ <-]|[_ H]]%lookup_insert_Some; [done|]. by rewrite lookup_empty in H.
Defined.

(** X6: the keys of the cleaned mapping are exactly the keys of the input
    whose value is not [None]; cleaning adds no key. *)
Theorem clean_params_keys (dic out : gmap string value) :
  clean_params (Some dic) = Some out ->
  dom out ⊆ dom dic
  /\ size out <= size dic
  /\ (forall k, is_Some (out !! k) <-> exists v, dic !! k = Some v /\ v <> VNone).
Proof.
  intros E. destruct (clean_params_Some_inv _ _ E) as (d & [= <-] & _ & ->).
  assert (Hkeys : forall k, is_Some (clean_dict_values (remove_empty_dict_values dic) !! k)
                    <-> exists v, dic !! k = Some v /\ v <> VNone).
  { intros k. rewrite cleaned_lookup. destruct (dic !! k) as [v|].
    - destruct v; simpl; split; intros H; try (by eexists); try (by eauto);
        try (by destruct H as (? & [= <-] & ?)); by destruct H.
    - split; [by intros []| by intros (? & ? & _)]. }
  assert (Hdom : dom (clean_dict_values (remove_empty_dict_values dic)) ⊆ dom dic).
  { intros k. rewrite !elem_of_dom, Hkeys. intros (v & -> & _). by eexists. }
  split; [done|]. split; [|done].
  rewrite <- !size_dom. by apply subseteq_size.
Qed.

Lemma clean_params_keys_witness :
  dom sample_clean ⊆ dom sample
  /\ size sample_clean <= size sample
  /\ (forall k, is_Some (sample_clean !! k) <-> exists v, sample !! k = Some v /\ v <> VNone).
Proof. exact (clean_params_keys sample sample_clean eq_refl). Defined.

Lemma str_of_strs (l : list string) : List.map Py.str (List.map VStr l) = l.
Proof. induction l as [|s l IH]; [done|]. simpl. by rewrite IH. Qed.

(** X7: edge cases of a list value. The empty list becomes the empty string
    and its key is kept, also by [clean_params]; one element is rendered
    with no comma; bools and [None] inside a list are rendered by [str], so
    capitalised, and are not dropped. *)
Theorem clean_list_edge_cases (dic : gmap string value) (k : string) :
  (dic !! k = Some (VList []) ->
     clean_dict_values dic !! k = Some (VStr EmptyString)
     /\ forall out, clean_params (Some dic) = Some out ->
          out !! k = Some (VStr EmptyString))
  /\ (forall x, dic !! k = Some (VList [x]) ->
        clean_dict_values dic !! k = Some (VStr (Py.str x)))
  /\ (forall bs, dic !! k = Some (VList (List.map VBool bs)) ->
        clean_dict_values dic !! k
        = Some (VStr (comma_separated
                        (List.map (fun b : bool => if b then "True" else "False") bs))))
  /\ (forall n, dic !! k = Some (VList (replicate n VNone)) ->
        clean_dict_values dic !! k
        = Some (VStr (comma_separated (replicate n "None")))).
Proof.
  split; [|split; [|split]].
  - intros Hk. split; [by rewrite clean_dict_values_lookup, Hk|].
    intros out E. destruct (clean_params_Some_inv _ _ E) as (d & [= <-] & _ & ->).
    by rewrite cleaned_lookup, Hk.
  - intros x Hk. by rewrite clean_dict_values_lookup, Hk.
  - intros bs Hk.
    assert (Hm : List.map Py.str (List.map VBool bs)
                 = List.map (fun b : bool => if b then "True" else "False") bs).
    { rewrite List.map_map. apply List.map_ext. by intros []. }
    rewrite clean_dict_values_lookup, Hk. simpl.
    by rewrite Hm, join_comma_separated.
  - intros n Hk.
    assert (Hm : List.map Py.str (replicate n VNone) = replicate n "None").
    { clear Hk. induction n as [|n IH]; [done|]. exact (f_equal (cons "None") IH). }
    rewrite clean_dict_values_lookup, Hk. simpl.
    by rewrite Hm, join_comma_separated.
Qed.

Lemma clean_list_edge_cases_witness :
  clean_dict_values {[ "ids" := VList [] ]} !! "ids" = Some (VStr EmptyString)
  /\ clean_dict_values {[ "flags" := VList [VBool true; VBool false] ]} !! "flags"
     = Some (VStr "True,False").
Proof.
  split.
  - exact (proj1 (proj1 (clean_list_edge_cases {[ "ids" := VList [] ]} "ids") eq_refl)).
  - exact (proj1 (proj2 (proj2 (clean_list_edge_cases
             {[ "flags" := VList [VBool true; VBool false] ]} "flags")))
             [true; false] eq_refl).
Defined.

(** X8: a list of strings is joined as it is, with no escaping: an element
    that holds a comma gives the same text as two elements. *)
Theorem clean_list_no_escaping (dic : gmap string value) (k : string) (l : list string) :
  dic !! k = Some (of_strs l) ->
  clean_dict_values dic !! k = Some (VStr (comma_separated l))
  /\ (forall (dic' : gmap string value) a b,
        l = [a ++ "," ++ b] -> dic' !! k = Some (of_strs [a; b]) ->
        clean_dict_values dic' !! k = clean_dict_values dic !! k).
Proof.
  intros Hk.
  assert (H1 : clean_dict_values dic !! k = Some (VStr (comma_separated l))).
  { rewrite clean_dict_values_lookup, Hk. simpl.
    by rewrite str_of_strs, join_comma_separated. }
  split; [done|].
  intros dic' a b -> Hk'. rewrite H1, clean_dict_values_lookup, Hk'. simpl.
  by rewrite !append_empty_r.
Qed.

Lemma clean_list_no_escaping_witness :
  clean_dict_values {[ "ids" := of_strs ["a,b"] ]} !! "ids" = Some (VStr "a,b")
  /\ clean_dict_values {[ "ids" := of_strs ["a"; "b"] ]} !! "ids"
     = clean_dict_values {[ "ids" := of_strs ["a,b"] ]} !! "ids".
Proof.
  split.
  - exact (proj1 (clean_list_no_escaping {[ "ids" := of_strs ["a,b"] ]} "ids" ["a,b"]
                    eq_refl)).
  - exact (proj2 (clean_list_no_escaping {[ "ids" := of_strs ["a,b"] ]} "ids" ["a,b"]
                    eq_refl) {[ "ids" := of_strs ["a"; "b"] ]} "a" "b" eq_refl eq_refl).
Defined.

(** * Further properties of the request client *)

Section MoreClient.

Variable net : Request -> exn + Response.
Variable self : CoinGecko.
Implicit Types (path : string) (w : world) (r : Response).

(** X9: when the transport raises, [_get] lets the exception through: the
    request went out once, nothing is logged, nothing is retried. *)
Theorem get_transport_failure path (params : option (gmap string value)) w (x : exn) :
  net (request_of self path params) = inl x ->
  _get net self path params w
  = (inl (Builtin x), after_request w (request_of self path params)).
Proof. intros Hnet. by rewrite _get_unfold, Hnet. Qed.

(** X10: whatever comes back, one call hands exactly one request to the
    transport and adds at most one log record, behind the records that were
    there; the level of that record is INFO in silent mode and WARNING
    otherwise, and a 200 response logs nothing. *)
Theorem get_single_attempt path (params : option (gmap string value)) w :
  sent (snd (_get net self path params w))
    = (sent w ++ [request_of self path params])%list
  /\ exists new : list LogRecord,
      logged (snd (_get net self path params w)) = (logged w ++ new)%list
      /\ length new <= 1
      /\ (forall rec, In rec new ->
            levelno rec = if fail_silently self then INFO else WARNING)
      /\ (forall r, net (request_of self path params) = inr r ->
            status_code r = 200%Z -> new = []).
Proof.
  split; [apply _get_sent|].
  rewrite _get_unfold.
  assert (Hnone : forall st : raised + value,
            (forall r, net (request_of self path params) = inr r ->
               status_code r = 200%Z -> @nil LogRecord = []) ->
            exists new : list LogRecord,
              logged (snd (st, after_request w (request_of self path params)))
                = (logged w ++ new)%list
              /\ length new <= 1
              /\ (forall rec, In rec new ->
                    levelno rec = if fail_silently self then INFO else WARNING)
              /\ (forall r, net (request_of self path params) = inr r ->
                    status_code r = 200%Z -> new = [])).
  { intros st H. exists []. simpl. rewrite app_nil_r.
    split; [done|]. split; [lia|]. split; [by intros rec []|done]. }
  destruct (net _) as [x|r] eqn:Hnet; [by apply Hnone|].
  destruct (status_code r =? 200)%Z eqn:Hst; [by apply Hnone|].
  apply Z.eqb_neq in Hst.
  destruct (Utf8.decode (content r)) as [x|text]; [by apply Hnone|].
  destruct (fail_silently self); simpl; eexists; (split; [reflexivity|]);
    (split; [simpl; lia|]); (split; [by intros rec [<-|[]]|]);
    intros r' [= <-] H200; done.
Qed.

(** X11: a [CoinGeckoAPIError] comes out of [_get] only when [fail_silently]
    is false and the transport answered with a status other than 200; the
    error carries that very response. *)
Theorem get_api_error_inv path (params : option (gmap string value)) w
    (e : CoinGeckoAPIError) :
  fst (_get net self path params w) = inl (APIError e) ->
  fail_silently self = false
  /\ exists r, net (request_of self path params) = inr r
       /\ status_code r <> 200%Z
       /\ e = error_of r
       /\ exists text, Utf8.decode (content r) = inr text.
Proof.
  rewrite _get_unfold.
  destruct (net _) as [x|r]; [done|].
  destruct (status_code r =? 200)%Z eqn:Hst.
  { simpl. by destruct (json r). }
  apply Z.eqb_neq in Hst.
  destruct (Utf8.decode (content r)) as [x|text] eqn:Hd; [done|].
  destruct (fail_silently self); [done|]. simpl. intros [= <-].
  split; [done|]. exists r. split; [done|]. split; [done|]. split; [done|].
  by exists text.
Qed.

(** X12: the text of the log record, whose level and wording follow
    [fail_silently]. The details are the decoded body text when [r.json()]
    raises, whatever it raises; the parsed text itself when the body parses
    as a JSON string; and the [str] of the parsed value when that value
    holds ASCII text only. *)
Theorem get_log_message path (params : option (gmap string value)) w r (text : string) :
  net (request_of self path params) = inr r ->
  status_code r <> 200%Z ->
  Utf8.decode (content r) = inr text ->
  (forall x, json r = inl x ->
     logged (snd (_get net self path params w))
     = (logged w ++ [error_record (fail_silently self) (status_code r) path text])%list)
  /\ (forall s, json r = inr (VStr s) ->
     logged (snd (_get net self path params w))
     = (logged w ++ [error_record (fail_silently self) (status_code r) path s])%list)
  /\ (forall parsed, json r = inr parsed -> exact_str parsed = true ->
     logged (snd (_get net self path params w))
     = (logged w ++
         [error_record (fail_silently self) (status_code r) path (Py.str parsed)])%list).
Proof.
  intros Hnet Hst%Z.eqb_neq Htext.
  rewrite _get_unfold, Hnet, Hst, Htext. unfold error_record.
  split; [|split].
  - intros x ->. by destruct (fail_silently self).
  - intros s ->. by destruct (fail_silently self).
  - intros parsed -> _. by destruct (fail_silently self).
Qed.


End MoreClient.

Lemma get_transport_failure_witness :
  _get refusing api "ping" None w0
  = (inl (Builtin ConnectionError), after_request w0 (request_of api "ping" None)).
Proof.
  exact (get_transport_failure refusing api "ping" None w0 ConnectionError eq_refl).
Defined.

Lemma get_api_error_inv_witness :
  fail_silently api = false
  /\ exists r, always not_found (request_of api "test" None) = inr r
       /\ status_code r <> 200%Z
       /\ error_of not_found = error_of r
       /\ exists text, Utf8.decode (content r) = inr text.
Proof.
  exact (get_api_error_inv (always not_found) api "test" None w0 (error_of not_found)
           eq_refl).
Defined.

Lemma get_log_message_witness :
  logged (snd (_get (always not_found) api "test" None w0))
  = [{| levelno := WARNING;
        msg := "CoinGecko API error 404 on test: {'error': 'Not Found'}" |}]
  /\ logged (snd (_get (always not_found_text) api_silent "test" None w0))
  = [{| levelno := INFO;
        msg := "CoinGecko API silent error 404 on test: Not Found Message Content" |}].
Proof.
  split.
  - refine (proj2 (proj2 (get_log_message (always not_found) api "test" None w0
                            not_found "404 Not Found Message" eq_refl _ eq_refl))
              (VDict [("error", VStr "Not Found")]) eq_refl eq_refl).
    discriminate.
  - refine (proj1 (get_log_message (always not_found_text) api_silent "test" None w0
                     not_found_text "Not Found Message Content" eq_refl _ eq_refl)
              JSONDecodeError eq_refl).
    discriminate.
Defined.


(** X14: the API key takes no part in a call: two clients that differ in
    their key only behave alike, and the one header sent is [accept]. *)
Theorem key_is_never_used (net : Request -> exn + Response) (k1 k2 : option string)
    (fs : bool) (path : string) (params : option (gmap string value)) (w : world) :
  _get net {| key := k1; fail_silently := fs |} path params w
  = _get net {| key := k2; fail_silently := fs |} path params w
  /\ headers (request_of {| key := k1; fail_silently := fs |} path params)
     = {[ "accept" := "application/json" ]}.
Proof. split; reflexivity. Qed.



(** X16: the [message] given to the constructor is never rendered, and every
    rendering starts with the status code and a space. *)
Theorem str_starts_with_status (r : Response) (m1 m2 : string) :
  __str__ {| response := r; message := m1 |} = __str__ {| response := r; message := m2 |}
  /\ forall s, __str__ {| response := r; message := m1 |} = inr s ->
       exists detail, s = Py.str_int (status_code r) ++ " " ++ detail.
Proof.
  split; [reflexivity|]. unfold __str__. simpl. intros s.
  destruct (json r) as [x|parsed].
  - destruct x; try done. destruct (Utf8.decode (content r)); [done|].
    intros [= <-]. by eexists.
  - destruct (getitem parsed "error"); [done|]. intros [= <-]. by eexists.
Qed.

(** X17: when the body parses as JSON that is no object (a list, a string,
    a number, [null]), rendering the error raises [TypeError]. *)
Theorem str_of_non_object_raises (e : CoinGeckoAPIError) (parsed : value) :
  json (response e) = inr parsed ->
  (forall items, parsed <> VDict items) ->
  __str__ e = inl TypeError.
Proof.
  intros Hj Hno. unfold __str__. rewrite Hj.
  destruct parsed; try done. by destruct (Hno items).
Qed.

Lemma str_of_non_object_raises_witness :
  __str__ (error_of not_an_object) = inl TypeError.
Proof.
  refine (str_of_non_object_raises (error_of not_an_object) (VList []) eq_refl _).
  intros items. discriminate.
Defined.

(** * Further properties of the endpoint methods *)

Ltac dict_lookup :=
  unfold dict_display; simpl;
  repeat first [rewrite lookup_insert_eq | rewrite lookup_insert_ne by done];
  rewrite ?lookup_empty.

(** X18: [get_simple_price] for any arguments: one request to [simple/price];
    [ids] and [vs_currencies] are sent comma joined, and each flag is sent
    as "true" or "false" when it was given and left out when it was not. *)
Theorem get_simple_price_params (net : Request -> exn + Response) (self : CoinGecko)
    (ids vs_currencies : list string) (mc vol chg upd : option bool) (w : world) :
  exists out : gmap string value,
    sent (snd (get_simple_price net self ids vs_currencies mc vol chg upd w))
    = (sent w ++
        [{| url := "https://api.coingecko.com/api/v3/simple/price";
            params := Some out;
            headers := {[ "accept" := "application/json" ]} |}])%list
    /\ out !! "ids" = Some (VStr (comma_separated ids))
    /\ out !! "vs_currencies" = Some (VStr (comma_separated vs_currencies))
    /\ out !! "include_market_cap" = flag_text <$> mc
    /\ out !! "include_24hr_vol" = flag_text <$> vol
    /\ out !! "include_24hr_change" = flag_text <$> chg
    /\ out !! "include_last_updated_at" = flag_text <$> upd.
Proof.
  eexists. split.
  - unfold get_simple_price. rewrite _get_sent. unfold request_of.
    rewrite clean_params_nonempty; [reflexivity|].
    intros H. apply (f_equal (fun m : gmap string value => m !! "ids")) in H.
    revert H. dict_lookup. done.
  - rewrite !cleaned_lookup. dict_lookup. simpl.
    rewrite !str_of_strs, !join_comma_separated.
    repeat split; try done; by match goal with |- context [of_opt VBool ?o] => destruct o as [[]|] end.
Qed.

(** X19: [get_coins_list] always sends [include_platform], as "true",
    "false" or, when the argument is missing, "none". *)
Theorem get_coins_list_always_sends_flag (net : Request -> exn + Response)
    (self : CoinGecko) (include_platform : option bool) (w : world) :
  sent (snd (get_coins_list net self include_platform w))
  = (sent w ++
      [{| url := "https://api.coingecko.com/api/v3/coins/list";
          params := Some {[ "include_platform" :=
                              VStr match include_platform with
                                   | Some true => "true"
                                   | Some false => "false"
                                   | None => "none"
                                   end ]};
          headers := {[ "accept" := "application/json" ]} |}])%list.
Proof.
  unfold get_coins_list. rewrite _get_sent.
  by destruct include_platform as [[]|].
Qed.

(** X20: the other methods whose path is a plain string with a placeholder
    do the same for every identifier: the argument has no effect on the
    call, and the braces go out as they are. *)
Theorem unfilled_templates_ignore_id (net : Request -> exn + Response) (self : CoinGecko)
    (w : world) (id id' : string) :
  (forall addrs vs mc vol chg upd,
      get_simple_token_price net self id addrs vs mc vol chg upd w
      = get_simple_token_price net self id' addrs vs mc vol chg upd w)
  /\ (forall coin_ids logo page depth order,
      get_exchange_tickets net self id coin_ids logo page depth order w
      = get_exchange_tickets net self id' coin_ids logo page depth order w)
  /\ (forall per_page page,
      get_exchange_status_updates net self id per_page page w
      = get_exchange_status_updates net self id' per_page page w)
  /\ (forall days,
      get_exchange_volume_chart net self id days w
      = get_exchange_volume_chart net self id' days w)
  /\ (forall include_tickers,
      get_derivatives_exchange net self id include_tickers w
      = get_derivatives_exchange net self id' include_tickers w)
  /\ (forall days,
      url <$> last (sent (snd (get_exchange_volume_chart net self id days w)))
      = Some "https://api.coingecko.com/api/v3/exchanges/{id}/volume_chart").
Proof.
  repeat split. intros days.
  unfold get_exchange_volume_chart. by rewrite _get_sent, last_snoc.
Qed.

(** X21: three pairs of methods share one URL: [get_coin_status_updates]
    asks for the range chart of the coin, the range chart of a contract
    asks for the plain chart, and [get_finance_products] asks for the
    finance platforms. *)
Theorem endpoint_paths_collide (net : Request -> exn + Response) (self : CoinGecko)
    (w : world) (id address vs : string) :
  (forall per_page page from_param to,
      url <$> last (sent (snd (get_coin_status_updates net self id per_page page w)))
      = url <$> last (sent (snd (get_coin_market_chart_range net self id vs
                                    from_param to w))))
  /\ (forall days from_param to,
      url <$> last (sent (snd (get_coin_contract_market_chart_range net self id address
                                  vs from_param to w)))
      = url <$> last (sent (snd (get_coin_contract_market_chart net self id address
                                    vs days w))))
  /\ (forall per_page page start_at end_at,
      url <$> last (sent (snd (get_finance_products net self per_page page
                                  start_at end_at w)))
      = url <$> last (sent (snd (get_finance_platforms net self per_page page w)))).
Proof.
  unfold get_coin_status_updates, get_coin_market_chart_range,
    get_coin_contract_market_chart_range, get_coin_contract_market_chart,
    get_finance_products, get_finance_platforms.
  repeat split; intros; by rewrite !_get_sent, !last_snoc.
Qed.

(** X22: without [start_at] and [end_at], [get_finance_products] is the
    same call as [get_finance_platforms]. *)
Theorem get_finance_products_without_dates (net : Request -> exn + Response)
    (self : CoinGecko) (per_page page : option Z) (w : world) :
  get_finance_products net self per_page page None None w
  = get_finance_platforms net self per_page page w.
Proof.
  unfold get_finance_products, get_finance_platforms.
  assert (H : clean_params (Some (dict_display
                [("per_page", of_opt VInt per_page); ("page", of_opt VInt page);
                 ("start_at", of_opt VStr None); ("end_at", of_opt VStr None)]))
              = clean_params (Some (dict_display
                [("per_page", of_opt VInt per_page); ("page", of_opt VInt page)]))).
  { destruct per_page, page; vm_compute; reflexivity. }
  unfold _get. by rewrite H.
Qed.

(** X23: a method with no parameters sends no mapping ([None]); a method
    whose optional arguments are all left out sends the empty mapping. *)
Theorem optional_arguments_left_out (net : Request -> exn + Response) (self : CoinGecko)
    (w : world) (id : string) :
  params <$> last (sent (snd (ping net self w))) = Some None
  /\ params <$> last (sent (snd (get_finance_platforms net self None None w)))
     = Some (Some ∅)
  /\ params <$> last (sent (snd (get_status_updates net self None None None None w)))
     = Some (Some ∅)
  /\ params <$> last (sent (snd (get_events net self None None None None None None w)))
     = Some (Some ∅)
  /\ params <$> last (sent (snd (get_coin_tickers net self id None None None None None w)))
     = Some (Some ∅).
Proof.
  unfold ping, get_finance_platforms, get_status_updates, get_events, get_coin_tickers.
  repeat split; by rewrite _get_sent, last_snoc.
Qed.

(** X24: the range methods send the argument [from_param] under the key
    [from]; text is sent as text and integers go through as integers. *)
Theorem chart_range_params (net : Request -> exn + Response) (self : CoinGecko)
    (w : world) (id address vs from_text to_text : string) (from_int to_int : Z) :
  params <$> last (sent (snd (get_coin_market_chart_range net self id vs
                                from_text to_text w)))
  = Some (Some {[ "vs_currency" := VStr vs;
                  "from" := VStr from_text;
                  "to" := VStr to_text ]})
  /\ params <$> last (sent (snd (get_coin_contract_market_chart_range net self id address
                                   vs from_int to_int w)))
  = Some (Some {[ "vs_currency" := VStr vs;
                  "from" := VInt from_int;
                  "to" := VInt to_int ]}).
Proof.
  unfold get_coin_market_chart_range, get_coin_contract_market_chart_range.
  split; by rewrite _get_sent, last_snoc.
Qed.

(** X25: a coin identifier goes into the path as it is: with the identifier
    [id/tickers], [get_coin_by_id] asks for the URL of [get_coin_tickers]. *)
Theorem coin_id_not_escaped (net : Request -> exn + Response) (self : CoinGecko)
    (w : world) (id : string) (l t m c d s : option bool) :
  url <$> last (sent (snd (get_coin_by_id net self (id ++ "/tickers") l t m c d s w)))
  = url <$> last (sent (snd (get_coin_tickers net self id None None None None None w))).
Proof.
  unfold get_coin_by_id, get_coin_tickers. rewrite !_get_sent, !last_snoc.
  reflexivity.
Qed.
